(** * Dashboard-Bi: the data pipeline and the period comparison engine

    A shallow embedding of the modules under [nucleo/]: the column
    normaliser, the schema validator, the cleaner, the metric transformer,
    the filter engine, the period comparator, the insight generator and
    the linear forecaster.

    Conventions of the model.
    - A Python [str] is a Rocq [string] holding its UTF-8 bytes, as the
      source files store their literals.
    - A [pd.Timestamp] is the number of nanoseconds since 1970-01-01 as an
      unbounded [Z]; the range check of pandas (OutOfBoundsDatetime outside
      the years 1677..2262) is not modelled.
    - The two scalar arguments of [comparar_metricas] are binary64 floats.
      Numbers stored in table columns are exact rationals: the order in which
      pandas adds a column up is not part of this repository, so rounding
      inside tables is left out.
    - A [pd.DataFrame] is a list of column labels and a list of rows; a row
      maps labels to cells. Labels are taken to be pairwise distinct once the
      table is normalised.
    - Python exceptions are the [Lanza] results of an error monad.
    - What pandas, scikit-learn and Python's string formatting compute and
      this repository only calls is an interface ([Pandas], [Formato]). *)

From Stdlib Require Import Floats QArith Qround Ascii.
From stdpp Require Import base list strings gmap numbers pretty sorting.

(* ===================================================================== *)
(** * Part I: the model *)
(* ===================================================================== *)

(** ** Exceptions *)

Inductive excepcion :=
| KeyError (columna : string)
| TypeError
| ValueError (mensaje : string)
| IndexError
| NameError.           (* a name bound to no object; no run of the stages reaches it *)

Inductive resultado (A : Type) :=
| Ok (a : A)
| Lanza (e : excepcion).
Arguments Ok {A} a.
Arguments Lanza {A} e.

#[global] Instance resultado_ret : MRet resultado := @Ok.
#[global] Instance resultado_bind : MBind resultado :=
  λ A B f m, match m with Ok a => f a | Lanza e => Lanza e end.

Definition es_ok {A} (r : resultado A) : bool :=
  match r with Ok _ => true | Lanza _ => false end.

(** ** Dates *)

Abbreviation Timestamp := Z (only parsing).
Abbreviation Timedelta := Z (only parsing).

Definition ns_por_dia : Z := 86400000000000.

(** [timedelta(days=n)] *)
Definition timedelta (days : Z) : Timedelta := (days * ns_por_dia)%Z.

(** Days between 1970-01-01 and the civil date [y]-[m]-[d] of the proleptic
    Gregorian calendar, as [pd.Timestamp] counts them. *)
Definition dias_desde_civil (y m d : Z) : Z :=
  (let y' := if m <=? 2 then y - 1 else y in
   let era := y' / 400 in
   let yoe := y' - era * 400 in
   let mp := if m <=? 2 then m + 9 else m - 3 in
   let doy := (153 * mp + 2) / 5 + d - 1 in
   let doe := yoe * 365 + yoe / 4 - yoe / 100 + doy in
   era * 146097 + doe - 719468)%Z.

(** [pd.Timestamp("y-m-d")]: midnight of that day. *)
Definition fecha (y m d : Z) : Timestamp := (dias_desde_civil y m d * ns_por_dia)%Z.

(** Number of calendar days of the closed interval [ini, fin]. *)
Definition dias_del_periodo (p : Timestamp * Timestamp) : Z :=
  ((p.2 - p.1) / ns_por_dia + 1)%Z.

(** ** nucleo/filtros.py: ComparadorPeriodos *)

Definition obtener_periodos (fecha_inicio fecha_fin : Timestamp)
  : (Timestamp * Timestamp) * (Timestamp * Timestamp) :=
  (let duracion : Timedelta := fecha_fin - fecha_inicio in
   let inicio_anterior := fecha_inicio - duracion - timedelta 1 in
   let fin_anterior := fecha_inicio - timedelta 1 in
   ((fecha_inicio, fecha_fin), (inicio_anterior, fin_anterior)))%Z.

(** The dictionary returned by [comparar_metricas], one field per key. *)
Record Comparacion := {
  actual : float;
  anterior : float;
  diferencia : float;
  variacion_pct : float
}.

Definition comparar_metricas (valor_actual valor_anterior : float) : Comparacion :=
  let diferencia := (valor_actual - valor_anterior)%float in
  let variacion_pct :=
    if negb (valor_anterior =? 0)%float
    then ((diferencia / valor_anterior) * 100)%float
    else 0%float in
  {| actual := valor_actual;
     anterior := valor_anterior;
     diferencia := diferencia;
     variacion_pct := variacion_pct |}.

(** ** Tables *)

Inductive celda :=
| Nulo                 (* NaN, None, NaT *)
| Num (q : Q)
| Texto (s : string)
| Fecha (t : Timestamp).

Abbreviation fila := (gmap string celda).

Record DataFrame := {
  columnas : list string;
  filas : list fila
}.

Definition valor (c : string) (r : fila) : celda := default Nulo (r !! c).

(** [len(tabla)] *)
Definition len (t : DataFrame) : nat := length (filas t).


(** [tabla[c]]: the cells of one column, or KeyError. *)
Definition columna (t : DataFrame) (c : string) : resultado (list celda) :=
  if decide (c ∈ columnas t) then Ok (valor c <$> filas t) else Lanza (KeyError c).

(** The labels after a write to column [c]: a new label goes last. *)
Definition con_columna (c : string) (cs : list string) : list string :=
  if decide (c ∈ cs) then cs else cs ++ [c].

(** [tabla[c] = vals], with [vals] aligned on the rows of [tabla]. *)
Definition asignar (c : string) (vals : list celda) (t : DataFrame) : DataFrame :=
  {| columnas := con_columna c (columnas t);
     filas := zip_with (λ r v, <[c := v]> r) (filas t) vals |}.

(** [tabla[mask]] *)
Fixpoint filtrar_mascara {A} (mask : list bool) (l : list A) : list A :=
  match mask, l with
  | b :: mask', x :: l' => if b then x :: filtrar_mascara mask' l' else filtrar_mascara mask' l'
  | _, _ => []
  end.

Definition seleccionar (mask : list bool) (t : DataFrame) : DataFrame :=
  {| columnas := columnas t; filas := filtrar_mascara mask (filas t) |}.

Definition isna (c : celda) : bool :=
  match c with Nulo => true | _ => false end.

(** [(serie).sum()] of a boolean series *)
Definition contar (mask : list bool) : nat := length (filter (λ b, b = true) mask).

(** [any()] of a boolean series *)
Definition alguno (mask : list bool) : bool := existsb id mask.

Definition Qlt_bool (x y : Q) : bool := negb (Qle_bool y x).

(** [serie < 0] and [serie >= 0]: a null compares false; pandas compares the
    objects of a column that holds text with the integer, which raises. *)
Definition menor_que_cero (c : celda) : resultado bool :=
  match c with
  | Nulo => Ok false
  | Num q => Ok (Qlt_bool q 0)
  | Texto _ | Fecha _ => Lanza TypeError
  end.

Definition mayor_igual_cero (c : celda) : resultado bool :=
  match c with
  | Nulo => Ok false
  | Num q => Ok (Qle_bool 0 q)
  | Texto _ | Fecha _ => Lanza TypeError
  end.

Fixpoint para_cada {A B} (f : A → resultado B) (l : list A) : resultado (list B) :=
  match l with
  | [] => Ok []
  | x :: l' => y ← f x; ys ← para_cada f l'; Ok (y :: ys)
  end.

(** ** nucleo/contratos.py *)

Record EsquemaDatosVentas := {
  columnas_requeridas : list string;
  alias_a_estandar : gmap string string;
  columnas_opcionales : list string
}.

Definition esquema_por_defecto : EsquemaDatosVentas :=
  {| columnas_requeridas :=
       ["fecha"; "id_orden"; "id_cliente"; "id_producto"; "cantidad"; "precio";
        "costo"; "region"; "canal"];
     alias_a_estandar :=
       list_to_map
         [("date", "fecha"); ("fecha", "fecha");
          ("order_id", "id_orden"); ("id_orden", "id_orden");
          ("customer_id", "id_cliente"); ("id_cliente", "id_cliente");
          ("product_id", "id_producto"); ("id_producto", "id_producto");
          ("qty", "cantidad"); ("cantidad", "cantidad");
          ("price", "precio"); ("precio", "precio");
          ("cost", "costo"); ("costo", "costo");
          ("region", "region"); ("región", "region");
          ("canal", "canal"); ("channel", "canal")];
     columnas_opcionales := ["estado"; "categoria"; "nombre_producto"] |}.

Record ResultadoValidacion := {
  es_valido : bool;
  errores : list string;
  advertencias : list string
}.

(** ** nucleo/normalizacion.py *)

(** [str.isspace] on the ASCII range: tab to carriage return, the four
    separators 0x1C..0x1F and the space. The white space Python knows outside
    ASCII (U+0085, U+00A0, U+1680, U+2000 and so on) is not modelled. *)
Definition es_espacio (a : Ascii.ascii) : bool :=
  let n := Ascii.N_of_ascii a in
  ((9 <=? n) && (n <=? 13) || (28 <=? n) && (n <=? 32))%N.

Fixpoint lstrip (s : string) : string :=
  match s with
  | EmptyString => EmptyString
  | String a s' => if es_espacio a then lstrip s' else s
  end.

Fixpoint rstrip (s : string) : string :=
  match s with
  | EmptyString => EmptyString
  | String a s' =>
    match rstrip s' with
    | EmptyString => if es_espacio a then EmptyString else String a EmptyString
    | r => String a r
    end
  end.

Definition strip (s : string) : string := rstrip (lstrip s).

(** [str.lower] on ASCII and on the Latin-1 capitals U+00C0..U+00DE (without
    the sign U+00D7), which UTF-8 writes as 0xC3 followed by 0x80..0x9E.
    Capitals above U+00FF are left as they are. *)
Fixpoint lower_desde (tras_c3 : bool) (s : string) : string :=
  match s with
  | EmptyString => EmptyString
  | String a s' =>
    let n := Ascii.N_of_ascii a in
    let a' :=
      if tras_c3
      then (if (128 <=? n) && (n <=? 158) && negb (n =? 151) then Ascii.ascii_of_N (n + 32) else a)%N
      else (if (65 <=? n) && (n <=? 90) then Ascii.ascii_of_N (n + 32) else a)%N in
    String a' (lower_desde (n =? 195)%N s')
  end.

Definition lower (s : string) : string := lower_desde false s.

(** [re.sub(r"\s+", " ", s)] *)
Fixpoint colapsa_espacios (en_racha : bool) (s : string) : string :=
  match s with
  | EmptyString => EmptyString
  | String a s' =>
    if es_espacio a
    then (if en_racha then colapsa_espacios true s'
          else String " "%char (colapsa_espacios true s'))
    else String a (colapsa_espacios false s')
  end.

(** [s.replace(" ", "_")] *)
Fixpoint reemplaza_espacios (s : string) : string :=
  match s with
  | EmptyString => EmptyString
  | String a s' =>
    String (if Ascii.eqb a " "%char then "_"%char else a) (reemplaza_espacios s')
  end.

Definition _limpiar_nombre_columna (nombre : string) : string :=
  let nombre := lower (strip nombre) in
  let nombre := colapsa_espacios false nombre in
  reemplaza_espacios nombre.

Definition _construir_mapa_renombre (esquema : EsquemaDatosVentas)
    (columnas_originales : list string) : gmap string string :=
  foldl
    (λ mapa col,
       let col_limpia := _limpiar_nombre_columna col in
       match alias_a_estandar esquema !! col_limpia with
       | Some estandar => <[col := estandar]> mapa
       | None => <[col := col_limpia]> mapa
       end)
    ∅ columnas_originales.

(** [tabla.rename(columns=mapa)]: a label outside [mapa] is kept. The cells
    move with their label; if two labels are renamed alike, a row keeps the
    cell of the first one. *)
Definition renombre (mapa : gmap string string) (c : string) : string :=
  default c (mapa !! c).

Definition rename (mapa : gmap string string) (t : DataFrame) : DataFrame :=
  {| columnas := renombre mapa <$> columnas t;
     filas := (λ r, list_to_map ((λ c, (renombre mapa c, valor c r)) <$> columnas t))
                <$> filas t |}.

Definition normalizar (esquema : EsquemaDatosVentas) (tabla : DataFrame) : DataFrame :=
  let mapa_renombre := _construir_mapa_renombre esquema (columnas tabla) in
  rename mapa_renombre tabla.

(** ** What the libraries compute *)

(** What [pd.to_numeric] reads in one string: a number, a missing value (the
    empty string and the spellings of NaN), or nothing it can read. *)
Inductive num_leido :=
| Ilegible
| Vacio
| Valor (q : Q).

Class Pandas := {
  (** the string parser of [pd.to_numeric] *)
  leer_numero : string → num_leido;
  (** [pd.to_datetime(serie, errors="coerce")]: what one cell of the column
      [serie] becomes ([None] is NaT); the column is an argument because
      pandas may settle the date format on the whole column *)
  leer_fecha : list celda → celda → option Timestamp;
  (** whether [pd.to_datetime(serie, format=f, errors="raise")] returns *)
  fechas_legibles : option string → list celda → bool;
  (** [frame.sort_values(col, ascending=asc)] on the rows of a frame, [key]
      reading the sort column; the default sort of pandas is not stable, so
      the order among equal keys is left open *)
  sort_values : ∀ A : Type, (A → Q) → bool → list A → list A
}.


Class Formato := {
  (** [f"{n:,}"] *)
  fmt_miles : Z → string;
  (** [f"{x:,.2f}"] *)
  fmt_miles_2f : Q → string;
  (** [f"{x:.1f}"] *)
  fmt_1f : Q → string;
  (** [f"{x:+.1f}"] *)
  fmt_signo_1f : Q → string;
  (** [f"{v}"] of a group key *)
  fmt_valor : celda → string
}.

(** [sep.join(l)] *)
Fixpoint join (sep : string) (l : list string) : string :=
  match l with
  | [] => ""
  | [x] => x
  | x :: l' => x +:+ sep +:+ join sep l'
  end.

(** Truth value of an [Optional[str]]. *)
Definition es_verdadero (o : option string) : bool :=
  match o with
  | Some s => negb (String.eqb s "")
  | None => false
  end.

(** ** nucleo/configuracion.py *)

Record ConfiguracionAplicacion := {
  nombre_aplicacion : string;
  version : string;
  formato_fecha : option string;
  horizonte_pronostico_dias : Z;
  minimo_dias_historicos_para_pronostico : Z;
  cantidad_top_productos : Z;
  habilitar_cache : bool;
  max_filas_csv : Z
}.

Definition configuracion_por_defecto : ConfiguracionAplicacion :=
  {| nombre_aplicacion := "Dashboard BI - Ventas";
     version := "1.0.0";
     formato_fecha := None;
     horizonte_pronostico_dias := 30;
     minimo_dias_historicos_para_pronostico := 14;
     cantidad_top_productos := 5;
     habilitar_cache := true;
     max_filas_csv := 500000 |}.

(** ** nucleo/validacion.py *)

Section Validacion.
Context `{Pandas} `{Formato}.

(** [pd.to_numeric(serie, errors="raise")] returns: every cell is a number,
    a null, or a string that reads as one of the two. Columns carry no dtype
    here and are read as columns of objects, where a date is refused; of a
    whole [datetime64] column pandas would return the nanoseconds. *)
Definition numero_legible (c : celda) : bool :=
  match c with
  | Nulo | Num _ => true
  | Texto s => match leer_numero s with Ilegible => false | _ => true end
  | Fecha _ => false
  end.

Definition _columna_fecha_convertible (config : ConfiguracionAplicacion)
    (tabla : DataFrame) (col : string) : bool :=
  match columna tabla col with
  | Ok serie =>
    if es_verdadero (formato_fecha config)
    then fechas_legibles (formato_fecha config) serie
    else fechas_legibles None serie
  | Lanza _ => false
  end.

Definition _columna_numerica_convertible (tabla : DataFrame) (col : string) : bool :=
  match columna tabla col with
  | Ok serie => forallb numero_legible serie
  | Lanza _ => false
  end.

Definition error_tamano (filas maximo : Z) : string :=
  "El archivo tiene " +:+ fmt_miles filas
  +:+ " filas y excede el máximo permitido (" +:+ fmt_miles maximo
  +:+ "). Usa un archivo más pequeño o filtra los datos.".

Definition error_faltantes (faltantes : list string) : string :=
  "Faltan columnas requeridas en el archivo: " +:+ join ", " faltantes +:+ ".".

Definition error_fecha : string :=
  "La columna 'fecha' no se pudo convertir a formato fecha. "
  +:+ "Asegúrate de que tenga valores como '2025-01-31' o '31/01/2025'.".

Definition error_numerico (col_num : string) : string :=
  "La columna '" +:+ col_num +:+ "' no se pudo convertir a número. "
  +:+ "Revisa que no tenga texto o símbolos.".

Definition aviso_vacios (col : string) : string :=
  "Hay valores vacíos en '" +:+ col +:+ "'. Se tratarán como 0 si se limpia el dataset.".

Definition aviso_cantidades_negativas : string :=
  "Se detectaron cantidades negativas. Revisa si son devoluciones o errores.".
Definition aviso_precios_negativos : string :=
  "Se detectaron precios negativos. Revisa el CSV.".
Definition aviso_costos_negativos : string :=
  "Se detectaron costos negativos. Revisa el CSV.".

(** [if cond: lista.append(msg)] *)
Definition agrega_si (cond : bool) (msg : string) (lista : list string) : list string :=
  if cond then lista ++ [msg] else lista.

Definition validar (esquema : EsquemaDatosVentas) (config : ConfiguracionAplicacion)
    (tabla : DataFrame) : resultado ResultadoValidacion :=
  let errores : list string := [] in
  let advertencias : list string := [] in
  (* 1) size *)
  if (max_filas_csv config <? Z.of_nat (len tabla))%Z then
    let errores :=
      errores ++ [error_tamano (Z.of_nat (len tabla)) (max_filas_csv config)] in
    Ok {| es_valido := false; errores := errores; advertencias := advertencias |}
  else
  (* 2) required columns *)
  let faltantes :=
    filter (λ c, c ∉ columnas tabla) (columnas_requeridas esquema) in
  let errores :=
    agrega_si (negb (bool_decide (faltantes = []))) (error_faltantes faltantes) errores in
  if negb (bool_decide (errores = [])) then
    Ok {| es_valido := false; errores := errores; advertencias := advertencias |}
  else
  (* 3) the date column *)
  let errores :=
    agrega_si (negb (_columna_fecha_convertible config tabla "fecha")) error_fecha errores in
  (* 4) the numeric columns *)
  let errores :=
    foldl (λ errores col_num,
             agrega_si (negb (_columna_numerica_convertible tabla col_num))
               (error_numerico col_num) errores)
      errores ["cantidad"; "precio"; "costo"] in
  (* 5) warnings on missing values *)
  serie ← columna tabla "cantidad";
  let advertencias :=
    agrega_si (alguno (isna <$> serie)) (aviso_vacios "cantidad") advertencias in
  serie ← columna tabla "precio";
  let advertencias :=
    agrega_si (alguno (isna <$> serie)) (aviso_vacios "precio") advertencias in
  serie ← columna tabla "costo";
  let advertencias :=
    agrega_si (alguno (isna <$> serie)) (aviso_vacios "costo") advertencias in
  (* 6) warnings on negative values *)
  serie ← columna tabla "cantidad";
  negativos ← para_cada menor_que_cero serie;
  let advertencias := agrega_si (alguno negativos) aviso_cantidades_negativas advertencias in
  serie ← columna tabla "precio";
  negativos ← para_cada menor_que_cero serie;
  let advertencias := agrega_si (alguno negativos) aviso_precios_negativos advertencias in
  serie ← columna tabla "costo";
  negativos ← para_cada menor_que_cero serie;
  let advertencias := agrega_si (alguno negativos) aviso_costos_negativos advertencias in
  let es_valido := bool_decide (length errores = 0%nat) in
  Ok {| es_valido := es_valido; errores := errores; advertencias := advertencias |}.

End Validacion.

(** ** nucleo/etl.py *)

(** The field [advertencias] of the source; the name is taken by
    [ResultadoValidacion]. *)
Record ResultadoLimpieza := {
  filas_eliminadas : Z;
  advertencias_limpieza : list string
}.

(** A [for] loop that threads a state and stops at the first exception. *)
Fixpoint para_cada_estado {A S} (f : A → S → resultado S) (l : list A) (s : S)
  : resultado S :=
  match l with
  | [] => Ok s
  | x :: l' => s' ← f x s; para_cada_estado f l' s'
  end.

(** [serie.fillna(0)] *)
Definition fillna_0 (c : celda) : celda :=
  match c with Nulo => Num 0 | _ => c end.

Definition notna (c : celda) : bool := negb (isna c).

(** [tabla.dropna(subset=[c])] *)
Definition dropna (c : string) (tabla : DataFrame) : resultado DataFrame :=
  serie ← columna tabla c;
  Ok (seleccionar (notna <$> serie) tabla).

Definition aviso_sin_fecha (n : nat) : string :=
  "Se encontraron " +:+ pretty n +:+ " filas con 'fecha' inválida; fueron eliminadas.".

Definition aviso_no_numericos (col : string) (n : nat) : string :=
  "Se encontraron " +:+ pretty n +:+ " valores no numéricos/vacíos en '" +:+ col
  +:+ "'; se reemplazaron por 0.".

Definition aviso_cantidad_negativa (n : nat) : string :=
  "Se encontraron " +:+ pretty n +:+ " filas con 'cantidad' negativa; fueron eliminadas.".

Definition aviso_precio_negativo (n : nat) : string :=
  "Se encontraron " +:+ pretty n +:+ " filas con 'precio' negativo; fueron eliminadas.".

Definition aviso_costo_negativo (n : nat) : string :=
  "Se encontraron " +:+ pretty n +:+ " filas con 'costo' negativo; fueron eliminadas.".

(** [(tabla[col] < 0).sum()] *)
Definition contar_negativos (col : string) (tabla : DataFrame) : resultado nat :=
  serie ← columna tabla col;
  mascara ← para_cada menor_que_cero serie;
  Ok (contar mascara).

(** The three blocks of [limpiar] of the shape
    [if n > 0: advertencias.append(aviso); tabla = tabla[tabla[col] >= 0]]. *)
Definition eliminar_negativos (col : string) (n : nat) (aviso : nat → string)
    (estado : DataFrame * list string) : resultado (DataFrame * list string) :=
  let '(tabla, advertencias) := estado in
  if (0 <? n)%nat then
    let advertencias := advertencias ++ [aviso n] in
    serie ← columna tabla col;
    mascara ← para_cada mayor_igual_cero serie;
    Ok (seleccionar mascara tabla, advertencias)
  else Ok (tabla, advertencias).

Definition celda_de_fecha (o : option Timestamp) : celda :=
  match o with Some t => Fecha t | None => Nulo end.

Section Etl.
Context `{Pandas}.

(** [pd.to_datetime(serie, errors="coerce")] *)
Definition to_datetime_coerce (serie : list celda) : list celda :=
  (λ c, celda_de_fecha (leer_fecha serie c)) <$> serie.

(** [pd.to_numeric(serie, errors="coerce")], cell by cell; a date in a column
    of objects reads as no number. *)
Definition to_numeric_coerce (c : celda) : celda :=
  match c with
  | Nulo => Nulo
  | Num q => Num q
  | Texto s => match leer_numero s with Valor q => Num q | _ => Nulo end
  | Fecha _ => Nulo
  end.

(** The body of the loop over ["cantidad", "precio", "costo"]. *)
Definition convertir_numerico (col : string) (estado : DataFrame * list string)
  : resultado (DataFrame * list string) :=
  let '(tabla, advertencias) := estado in
  serie ← columna tabla col;
  let tabla := asignar col (to_numeric_coerce <$> serie) tabla in
  serie ← columna tabla col;
  let nulos := contar (isna <$> serie) in
  if (0 <? nulos)%nat then
    let advertencias := advertencias ++ [aviso_no_numericos col nulos] in
    serie ← columna tabla col;
    let tabla := asignar col (fillna_0 <$> serie) tabla in
    Ok (tabla, advertencias)
  else Ok (tabla, advertencias).

Definition limpiar (tabla : DataFrame) : resultado (DataFrame * ResultadoLimpieza) :=
  let advertencias : list string := [] in
  let filas_iniciales := len tabla in
  (* 1) dates *)
  serie ← columna tabla "fecha";
  let tabla := asignar "fecha" (to_datetime_coerce serie) tabla in
  serie ← columna tabla "fecha";
  let filas_sin_fecha := contar (isna <$> serie) in
  let advertencias :=
    agrega_si (0 <? filas_sin_fecha)%nat (aviso_sin_fecha filas_sin_fecha) advertencias in
  tabla ← dropna "fecha" tabla;
  (* 2) numbers *)
  '(tabla, advertencias) ←
    para_cada_estado convertir_numerico ["cantidad"; "precio"; "costo"]
      (tabla, advertencias);
  (* 3) negative quantities *)
  negativas ← contar_negativos "cantidad" tabla;
  '(tabla, advertencias) ←
    eliminar_negativos "cantidad" negativas aviso_cantidad_negativa (tabla, advertencias);
  (* negative prices and costs: both are counted before either is dropped *)
  precio_neg ← contar_negativos "precio" tabla;
  costo_neg ← contar_negativos "costo" tabla;
  '(tabla, advertencias) ←
    eliminar_negativos "precio" precio_neg aviso_precio_negativo (tabla, advertencias);
  '(tabla, advertencias) ←
    eliminar_negativos "costo" costo_neg aviso_costo_negativo (tabla, advertencias);
  let filas_finales := len tabla in
  let filas_eliminadas := (Z.of_nat filas_iniciales - Z.of_nat filas_finales)%Z in
  Ok (tabla,
      {| filas_eliminadas := filas_eliminadas; advertencias_limpieza := advertencias |}).

End Etl.

(** Arithmetic of two aligned numeric series; a null operand gives a null.
    Text or dates under an arithmetic operator are taken to raise. *)
Definition operar (op : Q → Q → celda) (a b : celda) : resultado celda :=
  match a, b with
  | Num x, Num y => Ok (op x y)
  | Nulo, Nulo | Nulo, Num _ | Num _, Nulo => Ok Nulo
  | _, _ => Lanza TypeError
  end.

Definition por : celda → celda → resultado celda := operar (λ x y, Num (x * y)).
Definition menos : celda → celda → resultado celda := operar (λ x y, Num (x - y)).

(** A zero divisor gives an infinity or NaN in pandas and no exception; no
    rational stands for them, so the model yields the null. *)
Definition entre : celda → celda → resultado celda :=
  operar (λ x y, if Qeq_bool y 0 then Nulo else Num (x / y)).

Definition serie_op (op : celda → celda → resultado celda) (s1 s2 : list celda)
  : resultado (list celda) :=
  para_cada (λ ab, op ab.1 ab.2) (zip s1 s2).

(** [serie > 0] *)
Definition mayor_que_cero (c : celda) : resultado bool :=
  match c with
  | Nulo => Ok false
  | Num q => Ok (Qlt_bool 0 q)
  | Texto _ | Fecha _ => Lanza TypeError
  end.

(** [tabla.loc[mask, c] = vals]: the rows selected by [mask] receive, in
    order, the values of [vals]. *)
Fixpoint asignar_donde (c : string) (mask : list bool) (vals : list celda)
    (rows : list fila) : list fila :=
  match mask, rows with
  | true :: mask', r :: rows' =>
    match vals with
    | v :: vals' => <[c := v]> r :: asignar_donde c mask' vals' rows'
    | [] => r :: asignar_donde c mask' [] rows'
    end
  | false :: mask', r :: rows' => r :: asignar_donde c mask' vals rows'
  | _, _ => rows
  end.

Definition loc_asignar (mask : list bool) (c : string) (vals : list celda)
    (t : DataFrame) : DataFrame :=
  {| columnas := con_columna c (columnas t);
     filas := asignar_donde c mask vals (filas t) |}.

Definition transformar (tabla : DataFrame) : resultado DataFrame :=
  cantidad ← columna tabla "cantidad";
  precio ← columna tabla "precio";
  ingresos ← serie_op por cantidad precio;
  let tabla := asignar "ingresos" ingresos tabla in
  cantidad ← columna tabla "cantidad";
  costo ← columna tabla "costo";
  costo_total ← serie_op por cantidad costo;
  let tabla := asignar "costo_total" costo_total tabla in
  ingresos ← columna tabla "ingresos";
  costo_total ← columna tabla "costo_total";
  margen ← serie_op menos ingresos costo_total;
  let tabla := asignar "margen" margen tabla in
  let tabla := asignar "margen_porcentaje" (replicate (len tabla) (Num 0)) tabla in
  ingresos ← columna tabla "ingresos";
  mask ← para_cada mayor_que_cero ingresos;
  margen ← columna tabla "margen";
  ingresos ← columna tabla "ingresos";
  cociente ← serie_op entre (filtrar_mascara mask margen) (filtrar_mascara mask ingresos);
  Ok (loc_asignar mask "margen_porcentaje" cociente tabla).

(** ** nucleo/filtros.py: FiltroDatos *)

Record FiltroSeleccion := {
  fecha_inicio : Timestamp;
  fecha_fin : Timestamp;
  region : option string;
  canal : option string;
  id_producto : option string
}.

(** [serie >= ts] and [serie <= ts] on a date column: NaT compares false;
    numbers and text against a Timestamp raise. *)
Definition fecha_mayor_igual (ts : Timestamp) (c : celda) : resultado bool :=
  match c with
  | Fecha t => Ok (ts <=? t)%Z
  | Nulo => Ok false
  | Num _ | Texto _ => Lanza TypeError
  end.

Definition fecha_menor_igual (ts : Timestamp) (c : celda) : resultado bool :=
  match c with
  | Fecha t => Ok (t <=? ts)%Z
  | Nulo => Ok false
  | Num _ | Texto _ => Lanza TypeError
  end.

(** [serie == s] for a string [s]: equality never raises. *)
Definition igual_a (s : string) (c : celda) : bool :=
  match c with
  | Texto s' => String.eqb s' s
  | _ => false
  end.

(** One categorical filter: [if sel and sel != todos: tabla = tabla[tabla[c] == sel]]. *)
Definition filtro_categoria (c : string) (sel : option string) (todos : string)
    (tabla : DataFrame) : resultado DataFrame :=
  match sel with
  | Some s =>
    if es_verdadero sel && negb (String.eqb s todos) then
      serie ← columna tabla c;
      Ok (seleccionar (igual_a s <$> serie) tabla)
    else Ok tabla
  | None => Ok tabla
  end.

Definition aplicar (tabla : DataFrame) (filtros : FiltroSeleccion) : resultado DataFrame :=
  serie ← columna tabla "fecha";
  desde ← para_cada (fecha_mayor_igual (fecha_inicio filtros)) serie;
  serie ← columna tabla "fecha";
  hasta ← para_cada (fecha_menor_igual (fecha_fin filtros)) serie;
  let tabla := seleccionar (zip_with andb desde hasta) tabla in
  tabla ← filtro_categoria "region" (region filtros) "Todas" tabla;
  tabla ← filtro_categoria "canal" (canal filtros) "Todos" tabla;
  tabla ← filtro_categoria "id_producto" (id_producto filtros) "Todos" tabla;
  Ok tabla.

(** ** Grouping and sums *)





(** Two cells name the same group. *)
Definition misma_clave (a b : celda) : bool :=
  match a, b with
  | Num x, Num y => Qeq_bool x y
  | Texto s, Texto s' => String.eqb s s'
  | Fecha t, Fecha t' => (t =? t')%Z
  | _, _ => false
  end.

(** The keys of [groupby]: the values of the column that are not null, once
    each. *)
Fixpoint claves (serie : list celda) : list celda :=
  match serie with
  | [] => []
  | c :: serie' =>
    if isna c then claves serie'
    else c :: filter (λ c', misma_clave c c' = false) (claves serie')
  end.

(** One row of [tabla.groupby(clave, as_index=False).agg(c=(c, "sum"), ...)]. *)
Record Grupo := {
  g_clave : celda;
  g_sumas : gmap string Q
}.

Definition suma_de (c : string) (g : Grupo) : Q := default 0%Q (g_sumas g !! c).



(** ** nucleo/pronostico.py *)












(** [serie.max()] of a column of integers or dates that is not empty. *)
Definition maximo (x : Z) (l : list Z) : Z := foldr Z.max x l.

Section Pronostico.
Context `{Pandas}.



End Pronostico.

(** ** nucleo/insights.py *)


Section Insights.
Context `{Pandas} `{Formato}.













End Insights.

(** ** The stages as programs over DataFrame objects

    The four stages work on one name, [tabla] ([tabla_filtrada] in
    [aplicar]). A statement reads the object the name is bound to, changes that
    object in place ([tabla[c] = ...], [tabla.loc[mask, c] = ...]), or binds
    the name to a new object ([tabla.copy()], [tabla[mask]],
    [tabla.dropna(...)], [tabla.rename(...)]). *)

Inductive Prog (A : Type) : Type :=
| Devuelve (a : A)
| Falla (e : excepcion)
| Lee (k : DataFrame → Prog A)
| Muta (f : DataFrame → DataFrame) (k : Prog A)
| Nueva (f : DataFrame → DataFrame) (k : Prog A).
Arguments Devuelve {A} a.
Arguments Falla {A} e.
Arguments Lee {A} k.
Arguments Muta {A} f k.
Arguments Nueva {A} f k.

Fixpoint prog_bind {A B} (k : A → Prog B) (m : Prog A) : Prog B :=
  match m with
  | Devuelve a => k a
  | Falla e => Falla e
  | Lee h => Lee (λ t, prog_bind k (h t))
  | Muta f m' => Muta f (prog_bind k m')
  | Nueva f m' => Nueva f (prog_bind k m')
  end.

#[global] Instance Prog_ret : MRet Prog := @Devuelve.
#[global] Instance Prog_bind : MBind Prog := @prog_bind.

(** The objects alive, by reference, and the run of a program from the object
    [l] the name is bound to: in place changes overwrite the object at [l], a
    new object is appended and the name moves to it. *)
Abbreviation ref := nat.
Abbreviation memoria := (list DataFrame).

Fixpoint ejecutar {A} (p : Prog A) (σ : memoria) (l : ref)
  : resultado A * memoria * ref :=
  match p with
  | Devuelve a => (Ok a, σ, l)
  | Falla e => (Lanza e, σ, l)
  | Lee k =>
    match σ !! l with
    | Some t => ejecutar (k t) σ l
    | None => (Lanza NameError, σ, l)
    end
  | Muta f k =>
    match σ !! l with
    | Some t => ejecutar k (<[l := f t]> σ) l
    | None => (Lanza NameError, σ, l)
    end
  | Nueva f k =>
    match σ !! l with
    | Some t => ejecutar k (σ ++ [f t]) (length σ)
    | None => (Lanza NameError, σ, l)
    end
  end.

(** The same program on table values: what it returns and the table the name
    ends on. *)
Fixpoint evaluar {A} (p : Prog A) (t : DataFrame) : resultado (A * DataFrame) :=
  match p with
  | Devuelve a => Ok (a, t)
  | Falla e => Lanza e
  | Lee k => evaluar (k t) t
  | Muta f k => evaluar k (f t)
  | Nueva f k => evaluar k (f t)
  end.

Definition elevar {A} (r : resultado A) : Prog A :=
  match r with Ok a => Devuelve a | Lanza e => Falla e end.

(** [tabla = tabla.copy()] *)
Definition df_copy : Prog unit := Nueva (λ t, t) (Devuelve ()).
(** [tabla[c]] *)
Definition df_col (c : string) : Prog (list celda) := Lee (λ t, elevar (columna t c)).
(** [tabla[c] = vals] *)
Definition df_set (c : string) (vals : list celda) : Prog unit :=
  Muta (asignar c vals) (Devuelve ()).
(** [tabla = tabla[mask]] *)
Definition df_mask (mask : list bool) : Prog unit :=
  Nueva (seleccionar mask) (Devuelve ()).
(** [tabla = tabla.dropna(subset=[c])] *)
Definition df_dropna (c : string) : Prog unit :=
  serie ← df_col c; df_mask (notna <$> serie).
(** [tabla = tabla.rename(columns=mapa)] *)
Definition df_rename (mapa : gmap string string) : Prog unit :=
  Nueva (rename mapa) (Devuelve ()).
(** [len(tabla)] and [tabla.columns] *)
Definition df_len : Prog nat := Lee (λ t, Devuelve (len t)).
Definition df_columns : Prog (list string) := Lee (λ t, Devuelve (columnas t)).
(** [tabla.loc[mask, c] = vals] *)
Definition df_loc_set (mask : list bool) (c : string) (vals : list celda) : Prog unit :=
  Muta (loc_asignar mask c vals) (Devuelve ()).

Definition normalizar_prog (esquema : EsquemaDatosVentas) : Prog unit :=
  df_copy;;
  cols ← df_columns;
  let mapa_renombre := _construir_mapa_renombre esquema cols in
  df_rename mapa_renombre.

Definition contar_negativos_prog (col : string) : Prog nat :=
  serie ← df_col col;
  mascara ← elevar (para_cada menor_que_cero serie);
  mret (contar mascara).

Definition eliminar_negativos_prog (col : string) (n : nat) (aviso : nat → string)
    (advertencias : list string) : Prog (list string) :=
  if (0 <? n)%nat then
    let advertencias := advertencias ++ [aviso n] in
    serie ← df_col col;
    mascara ← elevar (para_cada mayor_igual_cero serie);
    df_mask mascara;;
    mret advertencias
  else mret advertencias.

Section EtlProg.
Context `{Pandas}.

Definition convertir_numerico_prog (col : string) (advertencias : list string)
  : Prog (list string) :=
  serie ← df_col col;
  df_set col (to_numeric_coerce <$> serie);;
  serie ← df_col col;
  let nulos := contar (isna <$> serie) in
  if (0 <? nulos)%nat then
    let advertencias := advertencias ++ [aviso_no_numericos col nulos] in
    serie ← df_col col;
    df_set col (fillna_0 <$> serie);;
    mret advertencias
  else mret advertencias.

Definition limpiar_prog : Prog ResultadoLimpieza :=
  df_copy;;
  let advertencias : list string := [] in
  filas_iniciales ← df_len;
  serie ← df_col "fecha";
  df_set "fecha" (to_datetime_coerce serie);;
  serie ← df_col "fecha";
  let filas_sin_fecha := contar (isna <$> serie) in
  let advertencias :=
    agrega_si (0 <? filas_sin_fecha)%nat (aviso_sin_fecha filas_sin_fecha) advertencias in
  df_dropna "fecha";;
  advertencias ← convertir_numerico_prog "cantidad" advertencias;
  advertencias ← convertir_numerico_prog "precio" advertencias;
  advertencias ← convertir_numerico_prog "costo" advertencias;
  negativas ← contar_negativos_prog "cantidad";
  advertencias ←
    eliminar_negativos_prog "cantidad" negativas aviso_cantidad_negativa advertencias;
  precio_neg ← contar_negativos_prog "precio";
  costo_neg ← contar_negativos_prog "costo";
  advertencias ←
    eliminar_negativos_prog "precio" precio_neg aviso_precio_negativo advertencias;
  advertencias ←
    eliminar_negativos_prog "costo" costo_neg aviso_costo_negativo advertencias;
  filas_finales ← df_len;
  let filas_eliminadas := (Z.of_nat filas_iniciales - Z.of_nat filas_finales)%Z in
  mret {| filas_eliminadas := filas_eliminadas; advertencias_limpieza := advertencias |}.

End EtlProg.

Definition transformar_prog : Prog unit :=
  df_copy;;
  cantidad ← df_col "cantidad";
  precio ← df_col "precio";
  ingresos ← elevar (serie_op por cantidad precio);
  df_set "ingresos" ingresos;;
  cantidad ← df_col "cantidad";
  costo ← df_col "costo";
  costo_total ← elevar (serie_op por cantidad costo);
  df_set "costo_total" costo_total;;
  ingresos ← df_col "ingresos";
  costo_total ← df_col "costo_total";
  margen ← elevar (serie_op menos ingresos costo_total);
  df_set "margen" margen;;
  n ← df_len;
  df_set "margen_porcentaje" (replicate n (Num 0));;
  ingresos ← df_col "ingresos";
  mask ← elevar (para_cada mayor_que_cero ingresos);
  margen ← df_col "margen";
  ingresos ← df_col "ingresos";
  cociente ←
    elevar (serie_op entre (filtrar_mascara mask margen) (filtrar_mascara mask ingresos));
  df_loc_set mask "margen_porcentaje" cociente.

Definition filtro_categoria_prog (c : string) (sel : option string) (todos : string)
  : Prog unit :=
  match sel with
  | Some s =>
    if es_verdadero sel && negb (String.eqb s todos) then
      serie ← df_col c;
      df_mask (igual_a s <$> serie)
    else mret ()
  | None => mret ()
  end.

Definition aplicar_prog (filtros : FiltroSeleccion) : Prog unit :=
  df_copy;;
  serie ← df_col "fecha";
  desde ← elevar (para_cada (fecha_mayor_igual (fecha_inicio filtros)) serie);
  serie ← df_col "fecha";
  hasta ← elevar (para_cada (fecha_menor_igual (fecha_fin filtros)) serie);
  df_mask (zip_with andb desde hasta);;
  filtro_categoria_prog "region" (region filtros) "Todas";;
  filtro_categoria_prog "canal" (canal filtros) "Todos";;
  filtro_categoria_prog "id_producto" (id_producto filtros) "Todos".

(** ** A reference instance of the library interface

    Closed examples need concrete parsers and formatters. These read integer
    literals and ISO dates (YYYY-MM-DD) and print numbers without digit
    grouping; the general theorems do not depend on them. *)

Definition digito (a : Ascii.ascii) : option Z :=
  let n := Ascii.N_of_ascii a in
  if ((48 <=? n) && (n <=? 57))%N then Some (Z.of_N n - 48)%Z else None.

Fixpoint leer_digitos (acc : Z) (s : string) : option Z :=
  match s with
  | EmptyString => Some acc
  | String a s' =>
    match digito a with
    | Some d => leer_digitos (10 * acc + d)%Z s'
    | None => None
    end
  end.

Definition leer_natural (s : string) : option Z :=
  match s with
  | EmptyString => None
  | _ => leer_digitos 0 s
  end.

Definition leer_entero (s : string) : option Z :=
  match s with
  | String "-"%char s' => Z.opp <$> leer_natural s'
  | _ => leer_natural s
  end.

Definition leer_numero_ref (s : string) : num_leido :=
  match strip s with
  | EmptyString => Vacio
  | s' => match leer_entero s' with Some z => Valor (inject_Z z) | None => Ilegible end
  end.

Definition leer_fecha_iso (s : string) : option Timestamp :=
  if negb (String.length s =? 10)%nat then None else
  if negb (String.eqb (String.substring 4 1 s) "-" && String.eqb (String.substring 7 1 s) "-") then None else
  y ← leer_natural (String.substring 0 4 s);
  m ← leer_natural (String.substring 5 2 s);
  d ← leer_natural (String.substring 8 2 s);
  if ((1 <=? m) && (m <=? 12) && (1 <=? d) && (d <=? 31))%Z
  then Some (fecha y m d) else None.

Definition leer_fecha_ref (serie : list celda) (c : celda) : option Timestamp :=
  match c with
  | Nulo => None
  | Num q => Some (Qfloor q)
  | Texto s => leer_fecha_iso s
  | Fecha t => Some t
  end.

Definition fechas_legibles_ref (formato : option string) (serie : list celda) : bool :=
  forallb (λ c, match c with
                | Texto s => bool_decide (is_Some (leer_fecha_iso s))
                | _ => true
                end) serie.

Definition clave_le {A} (key : A → Q) (a b : A) : Prop := Qle_bool (key a) (key b) = true.

#[global] Instance clave_le_dec {A} (key : A → Q) (a b : A) : Decision (clave_le key a b) :=
  bool_eq_dec (Qle_bool (key a) (key b)) true.

Definition sort_values_ref (A : Type) (key : A → Q) (asc : bool) (l : list A) : list A :=
  if asc then merge_sort (clave_le key) l
  else merge_sort (flip (clave_le key)) l.

Definition pandas_ref : Pandas :=
  {| leer_numero := leer_numero_ref;
     leer_fecha := leer_fecha_ref;
     fechas_legibles := fechas_legibles_ref;
     sort_values := sort_values_ref |}.

Definition formato_ref : Formato :=
  {| fmt_miles := pretty;
     fmt_miles_2f := λ q, pretty (Qfloor q);
     fmt_1f := λ q, pretty (Qfloor q);
     fmt_signo_1f := λ q, pretty (Qfloor q);
     fmt_valor := λ c, match c with
                       | Texto s => s
                       | Num q => pretty (Qfloor q)
                       | Fecha t => pretty t
                       | Nulo => "nan"
                       end |}.

(** A row from its cells. *)
Definition fila_de (celdas : list (string * celda)) : fila := list_to_map celdas.

(** ** Vocabulary of the statements *)


Definition es_numero (c : celda) : bool :=
  match c with Num _ => true | _ => false end.

(** The row holds a number below 0, or a number that is at least 0, in [col]. *)
Definition negativo (col : string) (r : fila) : bool :=
  match valor col r with Num q => Qlt_bool q 0 | _ => false end.

Definition no_negativo (col : string) (r : fila) : bool :=
  match valor col r with Num q => Qle_bool 0 q | _ => false end.

Definition sin_negativos (col : string) (rows : list fila) : list fila :=
  filter (λ r, no_negativo col r = true) rows.

Definition negativos (col : string) (rows : list fila) : nat :=
  length (filter (λ r, negativo col r = true) rows).







(** The warning a count gives rise to. *)
Definition aviso_si (n : nat) (aviso : nat → string) : list string :=
  if (0 <? n)%nat then [aviso n] else [].

Section EtapasLimpieza.
Context `{Pandas}.

(** The row with its date converted, given the whole date column. *)
Definition con_fecha (serie : list celda) (r : fila) : fila :=
  <["fecha" := celda_de_fecha (leer_fecha serie (valor "fecha" r))]> r.

(** The row with [col] read as a number, 0 where it is none. *)
Definition numerico (col : string) (r : fila) : fila :=
  <[col := fillna_0 (to_numeric_coerce (valor col r))]> r.

Definition no_numericos (col : string) (rows : list fila) : nat :=
  length (filter (λ r, isna (to_numeric_coerce (valor col r)) = true) rows).

(** The rows of the table along the cleaning: with dates converted, with the
    undated rows dropped, with the three numeric columns converted, and last
    without negative quantities, prices and costs. *)
Definition filas_fechadas (t : DataFrame) : list fila :=
  con_fecha (valor "fecha" <$> filas t) <$> filas t.

Definition filas_con_fecha (t : DataFrame) : list fila :=
  filter (λ r, notna (valor "fecha" r) = true) (filas_fechadas t).

Definition filas_numericas (t : DataFrame) : list fila :=
  numerico "costo" <$> (numerico "precio" <$> (numerico "cantidad" <$> filas_con_fecha t)).

Definition filas_limpias (t : DataFrame) : list fila :=
  sin_negativos "costo"
    (sin_negativos "precio" (sin_negativos "cantidad" (filas_numericas t))).

Definition avisos_limpieza (t : DataFrame) : list string :=
  let f1 := filas_con_fecha t in
  let f2 := numerico "cantidad" <$> f1 in
  let f3 := numerico "precio" <$> f2 in
  let f4 := filas_numericas t in
  let f5 := sin_negativos "cantidad" f4 in
  aviso_si (length (filter (λ r, isna (valor "fecha" r) = true) (filas_fechadas t)))
    aviso_sin_fecha
  ++ aviso_si (no_numericos "cantidad" f1) (aviso_no_numericos "cantidad")
  ++ aviso_si (no_numericos "precio" f2) (aviso_no_numericos "precio")
  ++ aviso_si (no_numericos "costo" f3) (aviso_no_numericos "costo")
  ++ aviso_si (negativos "cantidad" f4) aviso_cantidad_negativa
  ++ aviso_si (negativos "precio" f5) aviso_precio_negativo
  ++ aviso_si (negativos "costo" f5) aviso_costo_negativo.

End EtapasLimpieza.

(** Every object alive in [σ] holds the same table in [σ']. *)
Definition conserva (σ σ' : memoria) : Prop :=
  ∀ l0 t0, σ !! l0 = Some t0 → σ' !! l0 = Some t0.

(** A run started in memory [σ] left every object of [σ] as it was and, when
    the stage returns on table values, returned the same in an object that did
    not exist in [σ]; when the stage raises, the run raised the same. *)
Definition devuelve_nueva {A} (σ : memoria) (corrida : resultado A * memoria * ref)
    (esperado : resultado (A * DataFrame)) : Prop :=
  conserva σ corrida.1.2
  ∧ match esperado with
    | Ok (a, t') =>
      corrida.1.1 = Ok a
      ∧ (length σ ≤ corrida.2)%nat
      ∧ corrida.1.2 !! corrida.2 = Some t'
    | Lanza e => corrida.1.1 = Lanza e
    end.

(** Sample tables with the nine required columns. *)
Definition fila_ventas (f c p k : celda) : fila :=
  fila_de [("fecha", f); ("id_orden", Texto "A1"); ("id_cliente", Texto "C1");
           ("id_producto", Texto "P1"); ("cantidad", c); ("precio", p); ("costo", k);
           ("region", Texto "Norte"); ("canal", Texto "Web")].

Definition tabla_ventas (rows : list fila) : DataFrame :=
  {| columnas := columnas_requeridas esquema_por_defecto; filas := rows |}.

(** 2025-01-31,A1,C1,P1,abc,10,3,Norte,Web *)
Definition tabla_cantidad_abc : DataFrame :=
  tabla_ventas [fila_ventas (Texto "2025-01-31") (Texto "abc") (Num 10) (Num 3)].

(** ayer,A1,C1,P1,abc,caro,3,Norte,Web *)
Definition tabla_tres_columnas_ilegibles : DataFrame :=
  tabla_ventas [fila_ventas (Texto "ayer") (Texto "abc") (Texto "caro") (Num 3)].



Definition filtros_enero : FiltroSeleccion :=
  {| fecha_inicio := fecha 2025 1 1; fecha_fin := fecha 2025 1 31;
     region := Some "Todas"; canal := None; id_producto := None |}.

Definition filtros_febrero_norte : FiltroSeleccion :=
  {| fecha_inicio := fecha 2025 2 1; fecha_fin := fecha 2025 2 28;
     region := Some "Norte"; canal := Some "Todos"; id_producto := None |}.

(** Three sales already cleaned: 2025-01-31, 2025-02-01 and 2025-02-02. *)
Definition tabla_limpia : DataFrame :=
  tabla_ventas
    [fila_ventas (Fecha (fecha 2025 1 31)) (Num 2) (Num 10) (Num 4);
     fila_ventas (Fecha (fecha 2025 2 1)) (Num 0) (Num 10) (Num 4);
     fila_ventas (Fecha (fecha 2025 2 2)) (Num 3) (Num 5) (Num 1)].


Definition es_fecha_o_nulo (c : celda) : bool :=
  match c with Fecha _ | Nulo => true | _ => false end.


(** The dates of a column, once each, in the order they first appear. *)
Fixpoint fechas_distintas (serie : list celda) : list Timestamp :=
  match serie with
  | [] => []
  | Fecha t :: serie' => t :: filter (λ t', t' ≠ t) (fechas_distintas serie')
  | _ :: serie' => fechas_distintas serie'
  end.













(* ===================================================================== *)
(** * Part II: properties *)
(* ===================================================================== *)

Example fecha_epoca : fecha 1970 1 1 = 0%Z.
Proof. reflexivity. Qed.

Example fecha_2000_03_01 : dias_desde_civil 2000 3 1 = 11017%Z.
Proof. reflexivity. Qed.

Example fecha_2025_01_15 : dias_desde_civil 2025 1 15 = 20103%Z.
Proof. reflexivity. Qed.

(** ** Period comparator *)

(** C1, as the spec states it, fails: for 2025-01-15..2025-01-21 the prior
    period that [obtener_periodos] returns does not start on 2025-01-07. *)
Lemma obtener_periodos_no_empieza_el_7 :
  (obtener_periodos (fecha 2025 1 15) (fecha 2025 1 21)).2
  = (fecha 2025 1 8, fecha 2025 1 14)
  ∧ (obtener_periodos (fecha 2025 1 15) (fecha 2025 1 21)).2
    ≠ (fecha 2025 1 7, fecha 2025 1 14)
  ∧ dias_del_periodo (fecha 2025 1 7, fecha 2025 1 14) = 8%Z.
Proof.
  split; [reflexivity|]. split; [|reflexivity].
  intros H. vm_compute in H. discriminate H.
Qed.

(** C1, amended: for the current period 2025-01-15..2025-01-21 the prior
    period is 2025-01-08..2025-01-14; both are 7 days long. For every current
    period the prior one follows the formula
    (start - duration - 1 day, start - 1 day) with duration = end - start: it
    ends exactly one day before the current one starts (no gap), strictly
    before it (no overlap), and spans the same duration. *)
Theorem obtener_periodos_anterior_contiguo :
  (let p := obtener_periodos (fecha 2025 1 15) (fecha 2025 1 21) in
   p.1 = (fecha 2025 1 15, fecha 2025 1 21)
   ∧ p.2 = (fecha 2025 1 8, fecha 2025 1 14)
   ∧ dias_del_periodo p.1 = 7%Z ∧ dias_del_periodo p.2 = 7%Z)
  ∧ ∀ ini fin : Timestamp,
      let p := obtener_periodos ini fin in
      (p.2.1 = ini - (fin - ini) - timedelta 1
       ∧ p.2.2 = ini - timedelta 1
       ∧ p.2.2 + timedelta 1 = p.1.1
       ∧ p.2.2 < p.1.1
       ∧ p.2.2 - p.2.1 = p.1.2 - p.1.1)%Z.
Proof.
  split.
  - repeat split; reflexivity.
  - intros ini fin. unfold obtener_periodos, timedelta, ns_por_dia. simpl.
    repeat split; lia.
Qed.

(** C7: for every pair of floats, [comparar_metricas] returns
    delta = current - prior and pct_change = (delta / prior) * 100 when the
    prior value differs from 0, and 0 when it equals 0, whatever the current
    value; 120 against 100 gives 20 and 20.0, 50 against 0 gives 50 and 0.0. *)
Theorem comparar_metricas_delta_y_porcentaje :
  (∀ a p : float,
     let r := comparar_metricas a p in
     actual r = a ∧ anterior r = p
     ∧ diferencia r = (a - p)%float
     ∧ variacion_pct r
       = if (p =? 0)%float then 0%float else (((a - p) / p) * 100)%float)
  ∧ (∀ a : float, variacion_pct (comparar_metricas a 0) = 0%float)
  ∧ comparar_metricas 120 100
    = {| actual := 120; anterior := 100; diferencia := 20; variacion_pct := 20 |}
  ∧ comparar_metricas 50 0
    = {| actual := 50; anterior := 0; diferencia := 50; variacion_pct := 0 |}.
Proof.
  split; [|split; [|split]].
  - intros a p. unfold comparar_metricas. simpl.
    repeat split. destruct (p =? 0)%float; reflexivity.
  - intros a. reflexivity.
  - vm_compute. reflexivity.
  - vm_compute. reflexivity.
Qed.

(** ** Column normaliser *)





(** ** Tables: columns, masks and counts *)

Lemma columna_ok t c : c ∈ columnas t → columna t c = Ok (valor c <$> filas t).
Proof. intros Hc. unfold columna. by rewrite decide_True. Qed.

Lemma columna_mk cs rows c :
  c ∈ cs → columna {| columnas := cs; filas := rows |} c = Ok (valor c <$> rows).
Proof. intros Hc. by apply columna_ok. Qed.

Lemma valor_insert c v (r : fila) : valor c (<[c := v]> r) = v.
Proof. unfold valor. by rewrite lookup_insert_eq. Qed.

Lemma valor_insert_ne c c' v (r : fila) : c ≠ c' → valor c' (<[c := v]> r) = valor c' r.
Proof. intros Hne. unfold valor. by rewrite lookup_insert_ne. Qed.

Lemma zip_with_fmap_r_mismo {A B C} (f : A → B → C) (h : A → B) (l : list A) :
  zip_with f l (h <$> l) = (λ x, f x (h x)) <$> l.
Proof. induction l as [|x l IH]; [done|]. cbn. f_equal. exact IH. Qed.

Lemma asignar_mk cs rows c (g : celda → celda) :
  c ∈ cs →
  asignar c (g <$> (valor c <$> rows)) {| columnas := cs; filas := rows |}
  = {| columnas := cs; filas := (λ r, <[c := g (valor c r)]> r) <$> rows |}.
Proof.
  intros Hc. unfold asignar, con_columna. cbn [columnas filas].
  rewrite decide_True by done.
  f_equal. rewrite <- list_fmap_compose. apply zip_with_fmap_r_mismo.
Qed.

Lemma asignar_fmap2 {A} cs c (f : A → fila) (h : A → celda) (l : list A) :
  c ∈ cs →
  asignar c (h <$> l) {| columnas := cs; filas := f <$> l |}
  = {| columnas := cs; filas := (λ x, <[c := h x]> (f x)) <$> l |}.
Proof.
  intros Hc. unfold asignar, con_columna. cbn [columnas filas].
  rewrite decide_True by done.
  f_equal. induction l as [|x l IH]; [done|]. cbn. f_equal. exact IH.
Qed.

Lemma filtrar_mascara_fmap {A} (p : A → bool) (l : list A) :
  filtrar_mascara (p <$> l) l = filter (λ x, p x = true) l.
Proof.
  induction l as [|x l IH]; [done|].
  rewrite fmap_cons. cbn [filtrar_mascara].
  rewrite IH. destruct (p x) eqn:Hp.
  - by rewrite filter_cons_True.
  - rewrite filter_cons_False; [done|]. by rewrite Hp.
Qed.

Lemma seleccionar_mk cs rows (p : fila → bool) :
  seleccionar (p <$> rows) {| columnas := cs; filas := rows |}
  = {| columnas := cs; filas := filter (λ r, p r = true) rows |}.
Proof. unfold seleccionar. cbn [columnas filas]. by rewrite filtrar_mascara_fmap. Qed.

Lemma contar_fmap {A} (p : A → bool) (l : list A) :
  contar (p <$> l) = length (filter (λ x, p x = true) l).
Proof.
  unfold contar. induction l as [|x l IH]; [done|].
  rewrite fmap_cons. destruct (p x) eqn:Hp.
  - rewrite !filter_cons_True by done. cbn [length]. by rewrite IH.
  - rewrite !filter_cons_False; [done| |]; by rewrite ?Hp.
Qed.

Lemma para_cada_ok {A B} (f : A → resultado B) (g : A → B) (l : list A) :
  Forall (λ x, f x = Ok (g x)) l → para_cada f l = Ok (g <$> l).
Proof.
  induction 1 as [|x l Hx Hl IH]; [done|]. cbn.
  rewrite Hx. cbn. rewrite IH. done.
Qed.

Lemma filter_todos {A} (P : A → Prop) `{∀ x, Decision (P x)} (l : list A) :
  Forall P l → filter P l = l.
Proof.
  induction 1 as [|x l Hx Hl IH]; [done|]. rewrite filter_cons_True by done. by f_equal.
Qed.

Lemma filter_vacio_Forall {A} (P : A → Prop) `{∀ x, Decision (P x)} (l : list A) :
  length (filter P l) = 0%nat → Forall (λ x, ¬ P x) l.
Proof.
  induction l as [|x l IH]; [constructor|].
  destruct (decide (P x)) as [Hx|Hx].
  - rewrite filter_cons_True by done. discriminate.
  - rewrite filter_cons_False by done. intros Hl. constructor; auto.
Qed.

Lemma valor_fmap_insert col (g : celda → celda) (rows : list fila) :
  valor col <$> ((λ r, <[col := g (valor col r)]> r) <$> rows) = (g ∘ valor col) <$> rows.
Proof.
  rewrite <- list_fmap_compose. apply list_fmap_ext. intros i r _. cbn.
  apply valor_insert.
Qed.

Lemma menor_que_cero_numero c : es_numero c = true →
  menor_que_cero c = Ok (match c with Num q => Qlt_bool q 0 | _ => false end).
Proof. by destruct c. Qed.

Lemma mayor_igual_cero_numero c : es_numero c = true →
  mayor_igual_cero c = Ok (match c with Num q => Qle_bool 0 q | _ => false end).
Proof. by destruct c. Qed.

Lemma no_negativo_de_numero col r :
  es_numero (valor col r) = true → negativo col r = false → no_negativo col r = true.
Proof.
  unfold negativo, no_negativo. destruct (valor col r) as [|q| |]; try done.
  intros _. unfold Qlt_bool. intros Hq%negb_false_iff. done.
Qed.


Lemma Forall_sin_negativos (P : fila → Prop) col rows :
  Forall P rows → Forall P (sin_negativos col rows).
Proof.
  rewrite !Forall_forall. intros HP r Hr. apply HP.
  unfold sin_negativos in Hr. by apply list_elem_of_filter in Hr as [_ ?].
Qed.

Lemma agrega_si_aviso_si n aviso adv :
  agrega_si (0 <? n)%nat (aviso n) adv = adv ++ aviso_si n aviso.
Proof. unfold agrega_si, aviso_si. destruct (0 <? n)%nat; [done|by rewrite app_nil_r]. Qed.

(** ** Cleaner: the steps *)

Lemma contar_negativos_mk cs rows col :
  col ∈ cs → Forall (λ r, es_numero (valor col r) = true) rows →
  contar_negativos col {| columnas := cs; filas := rows |} = Ok (negativos col rows).
Proof.
  intros Hc Hnum. unfold contar_negativos, negativos. rewrite columna_mk by done. cbn.
  rewrite (para_cada_ok _ (λ c, match c with Num q => Qlt_bool q 0 | _ => false end)).
  2:{ apply Forall_fmap. eapply Forall_impl; [exact Hnum|].
      intros r Hr. cbn. by apply menor_que_cero_numero. }
  cbn. f_equal. rewrite <- list_fmap_compose. by rewrite contar_fmap.
Qed.

Lemma eliminar_negativos_mk cs rows col n aviso adv :
  col ∈ cs → Forall (λ r, es_numero (valor col r) = true) rows →
  ((0 <? n)%nat = false → Forall (λ r, negativo col r = false) rows) →
  eliminar_negativos col n aviso ({| columnas := cs; filas := rows |}, adv)
  = Ok ({| columnas := cs; filas := sin_negativos col rows |},
        agrega_si (0 <? n)%nat (aviso n) adv).
Proof.
  intros Hc Hnum Hcero. unfold eliminar_negativos, sin_negativos.
  destruct (0 <? n)%nat eqn:Hn.
  - rewrite columna_mk by done. cbn.
    rewrite (para_cada_ok _ (λ c, match c with Num q => Qle_bool 0 q | _ => false end)).
    2:{ apply Forall_fmap. eapply Forall_impl; [exact Hnum|].
        intros r Hr. cbn. by apply mayor_igual_cero_numero. }
    cbn. rewrite <- list_fmap_compose. by rewrite seleccionar_mk.
  - cbn. f_equal. f_equal. f_equal. symmetry. apply filter_todos.
    specialize (Hcero eq_refl).
    rewrite Forall_forall in Hnum, Hcero. apply Forall_forall. intros r Hr.
    apply no_negativo_de_numero; auto.
Qed.

Lemma negativos_cero_Forall col rows :
  (0 <? negativos col rows)%nat = false → Forall (λ r, negativo col r = false) rows.
Proof.
  intros Hn. apply Nat.ltb_ge in Hn.
  assert (negativos col rows = 0%nat) as Hcero by lia.
  apply filter_vacio_Forall in Hcero. eapply Forall_impl; [exact Hcero|].
  intros r Hr. cbn in Hr. by destruct (negativo col r).
Qed.

Section Limpieza.
Context `{Pandas}.

Lemma fillna_0_no_nulo c : isna c ≠ true → fillna_0 c = c.
Proof. by destruct c. Qed.

Lemma es_numero_fillna_coerce c : es_numero (fillna_0 (to_numeric_coerce c)) = true.
Proof. destruct c as [|q|s|t]; cbn; try done. by destruct (leer_numero s). Qed.

Lemma valor_numerico col r :
  valor col (numerico col r) = fillna_0 (to_numeric_coerce (valor col r)).
Proof. apply valor_insert. Qed.

Lemma valor_numerico_ne col col' r :
  col ≠ col' → valor col' (numerico col r) = valor col' r.
Proof. apply valor_insert_ne. Qed.

Lemma convertir_numerico_mk cs rows adv col :
  col ∈ cs →
  convertir_numerico col ({| columnas := cs; filas := rows |}, adv)
  = Ok ({| columnas := cs; filas := numerico col <$> rows |},
        agrega_si (0 <? no_numericos col rows)%nat
          (aviso_no_numericos col (no_numericos col rows)) adv).
Proof.
  intros Hc. unfold convertir_numerico.
  rewrite columna_mk by done. cbn [mbind resultado_bind].
  rewrite asignar_mk by done.
  rewrite columna_mk by done. cbn [mbind resultado_bind].
  rewrite valor_fmap_insert, <- list_fmap_compose, contar_fmap.
  change (length (filter _ rows)) with (no_numericos col rows).
  destruct (0 <? no_numericos col rows)%nat eqn:Hn.
  - rewrite <- list_fmap_compose, asignar_fmap2 by done.
    cbn [agrega_si]. f_equal. f_equal. f_equal.
    apply list_fmap_ext. intros i r _. cbn. apply insert_insert_eq.
  - cbn [agrega_si]. f_equal. f_equal. f_equal.
    apply Nat.ltb_ge in Hn. assert (no_numericos col rows = 0%nat) as Hcero by lia.
    apply filter_vacio_Forall in Hcero. rewrite Forall_forall in Hcero.
    apply list_fmap_ext. intros i r Hr. unfold numerico.
    rewrite fillna_0_no_nulo; [done|]. apply Hcero. by eapply list_elem_of_lookup_2.
Qed.

Lemma filas_numericas_son_numeros t col :
  col ∈ ["cantidad"; "precio"; "costo"] →
  Forall (λ r, es_numero (valor col r) = true) (filas_numericas t).
Proof.
  intros Hcol. unfold filas_numericas.
  rewrite <- !list_fmap_compose. apply Forall_fmap, Forall_forall. intros r _. cbn.
  repeat (apply elem_of_cons in Hcol as [->|Hcol]);
    [| | |by apply elem_of_nil in Hcol].
  - rewrite !valor_numerico_ne by done. rewrite valor_numerico.
    apply es_numero_fillna_coerce.
  - rewrite valor_numerico_ne by done. rewrite valor_numerico.
    apply es_numero_fillna_coerce.
  - rewrite valor_numerico. apply es_numero_fillna_coerce.
Qed.

(** What [limpiar] returns on a table that has its four columns: the rows
    and the warnings, step by step. *)
Lemma limpiar_caracterizacion t :
  "fecha" ∈ columnas t → "cantidad" ∈ columnas t →
  "precio" ∈ columnas t → "costo" ∈ columnas t →
  limpiar t
  = Ok ({| columnas := columnas t; filas := filas_limpias t |},
        {| filas_eliminadas := Z.of_nat (len t) - Z.of_nat (length (filas_limpias t));
           advertencias_limpieza := avisos_limpieza t |}).
Proof.
  destruct t as [cs rows]. cbn [columnas]. intros Hf Hc Hp Hk.
  unfold limpiar.
  rewrite columna_mk by done. cbn [mbind resultado_bind].
  unfold to_datetime_coerce.
  rewrite asignar_mk by done.
  rewrite columna_mk by done. cbn [mbind resultado_bind].
  set (t := {| columnas := cs; filas := rows |}).
  change ((λ r : fila, _) <$> rows) with (filas_fechadas t).
  unfold dropna. rewrite columna_mk by done. cbn [mbind resultado_bind].
  rewrite <- (list_fmap_compose (valor "fecha") notna), seleccionar_mk.
  change (filter _ (filas_fechadas t)) with (filas_con_fecha t).
  rewrite <- (list_fmap_compose (valor "fecha") isna), contar_fmap.
  cbn [para_cada_estado].
  rewrite convertir_numerico_mk by done. cbn [mbind resultado_bind].
  rewrite convertir_numerico_mk by done. cbn [mbind resultado_bind].
  rewrite convertir_numerico_mk by done. cbn [mbind resultado_bind].
  change (numerico "costo" <$> _) with (filas_numericas t).
  rewrite contar_negativos_mk;
    [|done|apply filas_numericas_son_numeros; set_solver].
  cbn [mbind resultado_bind].
  rewrite eliminar_negativos_mk;
    [|done|apply filas_numericas_son_numeros; set_solver|apply negativos_cero_Forall].
  cbn [mbind resultado_bind].
  set (f5 := sin_negativos "cantidad" (filas_numericas t)).
  assert (∀ col, col ∈ ["cantidad"; "precio"; "costo"] →
            Forall (λ r, es_numero (valor col r) = true) f5) as Hnum5.
  { intros col Hcol. by apply Forall_sin_negativos, filas_numericas_son_numeros. }
  rewrite (contar_negativos_mk cs f5 "precio"); [|done|apply Hnum5; set_solver].
  rewrite (contar_negativos_mk cs f5 "costo"); [|done|apply Hnum5; set_solver].
  cbn [mbind resultado_bind].
  rewrite eliminar_negativos_mk;
    [|done|apply Hnum5; set_solver|apply negativos_cero_Forall].
  cbn [mbind resultado_bind].
  rewrite eliminar_negativos_mk;
    [|done|apply Forall_sin_negativos, Hnum5; set_solver|].
  2:{ intros Hn. by apply Forall_sin_negativos, negativos_cero_Forall. }
  cbn [mbind resultado_bind].
  f_equal. f_equal. f_equal.
  rewrite !agrega_si_aviso_si. unfold avisos_limpieza. cbn zeta.
  rewrite app_nil_l, <- !app_assoc. reflexivity.
Qed.

Lemma limpiar_no_lanza t :
  "fecha" ∈ columnas t → "cantidad" ∈ columnas t →
  "precio" ∈ columnas t → "costo" ∈ columnas t →
  es_ok (limpiar t) = true.
Proof. intros. by rewrite limpiar_caracterizacion. Qed.

End Limpieza.

(** ** Transformer *)
















(** ** Cleaner: the claims *)






(** ** Validator *)

Section Validador.
Context `{Pandas} `{Formato}.

(** The size check returns at once with its single error. *)
Lemma validar_tamano e c t :
  (max_filas_csv c < Z.of_nat (len t))%Z →
  validar e c t
  = Ok {| es_valido := false;
          errores := [error_tamano (Z.of_nat (len t)) (max_filas_csv c)];
          advertencias := [] |}.
Proof.
  intros Hmax. unfold validar.
  apply Z.ltb_lt in Hmax. by rewrite Hmax.
Qed.

(** Missing columns return at once with the error that lists them. *)
Lemma validar_faltantes e c t :
  (Z.of_nat (len t) ≤ max_filas_csv c)%Z →
  filter (λ col, col ∉ columnas t) (columnas_requeridas e) ≠ [] →
  validar e c t
  = Ok {| es_valido := false;
          errores :=
            [error_faltantes (filter (λ col, col ∉ columnas t) (columnas_requeridas e))];
          advertencias := [] |}.
Proof.
  intros Hmax Hfalt. unfold validar.
  apply Z.ltb_ge in Hmax. rewrite Hmax.
  rewrite (bool_decide_eq_false_2 _ Hfalt). cbn [negb agrega_si app].
  by rewrite bool_decide_eq_false_2.
Qed.

Lemma menor_que_cero_legible serie mascara :
  para_cada menor_que_cero serie = Ok mascara → forallb numero_legible serie = true.
Proof.
  revert mascara. induction serie as [|c serie IH]; intros mascara; [done|].
  cbn [para_cada]. destruct c as [|q|s|ts]; cbn; try done.
  - destruct (para_cada menor_que_cero serie); [eauto|done].
  - destruct (para_cada menor_que_cero serie); [eauto|done].
Qed.

(** Whenever [validar] returns, its result carries the size error, or the
    missing-columns error, or the date error, or no error: an error on a
    numeric column is never returned. *)
Lemma validar_errores_devueltos e c t :
  match validar e c t with
  | Ok r =>
    errores r = [error_tamano (Z.of_nat (len t)) (max_filas_csv c)]
    ∨ errores r
      = [error_faltantes (filter (λ col, col ∉ columnas t) (columnas_requeridas e))]
    ∨ errores r = [error_fecha]
    ∨ errores r = []
  | Lanza _ => True
  end.
Proof.
  unfold validar.
  destruct (max_filas_csv c <? Z.of_nat (len t))%Z; [by left|].
  destruct (bool_decide (filter (λ col, col ∉ columnas t) (columnas_requeridas e) = []));
    cbn [negb agrega_si app]; [|by right; left].
  rewrite bool_decide_eq_true_2 by done. cbn [negb].
  unfold _columna_numerica_convertible. cbn [foldl].
  destruct (columna t "cantidad") as [sc|] eqn:Hsc; [|done].
  destruct (columna t "precio") as [sp|] eqn:Hsp; [|done].
  destruct (columna t "costo") as [sk|] eqn:Hsk; [|done].
  cbn [mbind resultado_bind].
  destruct (para_cada menor_que_cero sc) as [mc|] eqn:Hmc; [|done].
  destruct (para_cada menor_que_cero sp) as [mp|] eqn:Hmp; [|done].
  destruct (para_cada menor_que_cero sk) as [mk|] eqn:Hmk; [|done].
  cbn [mbind resultado_bind errores].
  rewrite (menor_que_cero_legible _ _ Hmc), (menor_que_cero_legible _ _ Hmp),
    (menor_que_cero_legible _ _ Hmk).
  cbn [negb agrega_si].
  destruct (_columna_fecha_convertible c t "fecha"); cbn; auto.
Qed.

End Validador.

(** C3 at its failing input: the table has the nine required columns and one
    row whose quantity is the text "abc". [validar] records that the column is
    not numeric and then raises TypeError at the check for negative
    quantities; [limpiar] returns on the same table. *)
Theorem validar_lanza_con_texto_en_cantidad `{Pandas} `{Formato} :
  validar esquema_por_defecto configuracion_por_defecto tabla_cantidad_abc
  = Lanza TypeError
  ∧ es_ok (limpiar tabla_cantidad_abc) = true.
Proof.
  split.
  - vm_compute. reflexivity.
  - apply limpiar_no_lanza; vm_compute; set_solver.
Qed.

(** C4 at its failing input: the date, the quantity and the price of the row
    are unreadable, so three errors are due; [validar] raises TypeError
    instead of returning them. In general no result of [validar] carries
    more than one error. *)
Theorem validar_no_devuelve_errores_numericos :
  (@_columna_fecha_convertible pandas_ref configuracion_por_defecto
     tabla_tres_columnas_ilegibles "fecha" = false
   ∧ @_columna_numerica_convertible pandas_ref tabla_tres_columnas_ilegibles "cantidad"
     = false
   ∧ @_columna_numerica_convertible pandas_ref tabla_tres_columnas_ilegibles "precio"
     = false
   ∧ @validar pandas_ref formato_ref esquema_por_defecto configuracion_por_defecto
       tabla_tres_columnas_ilegibles
     = Lanza TypeError)
  ∧ ∀ (P : Pandas) (F : Formato) e c t,
      match validar e c t with
      | Ok r => (length (errores r) ≤ 1)%nat
      | Lanza _ => True
      end.
Proof.
  split; [repeat split; vm_compute; reflexivity|].
  intros P F e c t. pose proof (validar_errores_devueltos e c t) as Hv.
  destruct (validar e c t) as [r|]; [|done].
  destruct Hv as [-> | [-> | [-> | ->]]]; cbn; lia.
Qed.

(** ** The stages on objects *)

Ltac paso_prog :=
  cbn [evaluar prog_bind mbind Prog_bind resultado_bind elevar mret Prog_ret
       df_copy df_col df_set df_mask df_dropna df_rename df_len df_columns df_loc_set].

Ltac caso_prog :=
  paso_prog;
  repeat match goal with
  | E : ?r = _ |- context [elevar ?r] => rewrite E; paso_prog
  | |- context [elevar ?r] =>
    let E := fresh "E" in destruct r eqn:E; paso_prog; [|done]
  end.

Lemma evaluar_bind {A B} (m : Prog A) (k : A → Prog B) t :
  evaluar (m ≫= k) t = evaluar m t ≫= λ '(a, t'), evaluar (k a) t'.
Proof.
  revert t. induction m as [a|e|h IH|f m IH|f m IH]; intros t; cbn; auto.
Qed.

(** The run of a program whose name is bound to the newest object: objects
    are only appended, the name stays on the newest one, and the outcome is
    the one on table values. *)
Lemma ejecutar_en_cima {A} (p : Prog A) (M : memoria) (t : DataFrame) :
  ∃ M' t',
    (ejecutar p (M ++ [t]) (length M)).1.2 = (M ++ M') ++ [t']
    ∧ (ejecutar p (M ++ [t]) (length M)).2 = length (M ++ M')
    ∧ match evaluar p t with
      | Ok (a, tv) => (ejecutar p (M ++ [t]) (length M)).1.1 = Ok a ∧ t' = tv
      | Lanza e => (ejecutar p (M ++ [t]) (length M)).1.1 = Lanza e
      end.
Proof.
  revert M t. induction p as [a|e|h IH|f p IH|f p IH]; intros M t.
  - exists [], t. cbn. by rewrite app_nil_r.
  - exists [], t. cbn. by rewrite app_nil_r.
  - cbn [ejecutar evaluar]. rewrite list_lookup_middle by done. apply IH.
  - cbn [ejecutar evaluar]. rewrite list_lookup_middle by done.
    replace (<[length M := f t]> (M ++ [t])) with (M ++ [f t]).
    + apply IH.
    + rewrite insert_app_r_alt by done. by rewrite Nat.sub_diag.
  - cbn [ejecutar evaluar]. rewrite list_lookup_middle by done.
    destruct (IH (M ++ [t]) (f t)) as (M' & t' & Hm & Hl & Hr).
    exists ([t] ++ M'), t'. rewrite !app_assoc. done.
Qed.

(** A program that starts with [tabla = tabla.copy()] never writes to an
    object that existed before it ran. *)
Lemma ejecutar_tras_copia {A} (p : Prog A) (σ : memoria) (l : ref) (t : DataFrame) :
  σ !! l = Some t →
  devuelve_nueva σ (ejecutar (df_copy;; p) σ l) (evaluar (df_copy;; p) t).
Proof.
  intros Hl. unfold devuelve_nueva.
  change (evaluar (df_copy;; p) t) with (evaluar p t).
  change (ejecutar (df_copy;; p) σ l)
    with (match σ !! l with
          | Some t => ejecutar p (σ ++ [t]) (length σ)
          | None => (Lanza NameError, σ, l)
          end).
  rewrite Hl.
  destruct (ejecutar_en_cima p σ t) as (M' & t' & Hm & Href & Hr).
  rewrite Hm, Href. split.
  - intros l0 t0 H0. rewrite <- !app_assoc. by apply lookup_app_l_Some.
  - destruct (evaluar p t) as [[a tv]|e]; [|done].
    destruct Hr as [-> ->]. split; [done|]. split.
    + rewrite length_app. lia.
    + by rewrite list_lookup_middle.
Qed.

Lemma evaluar_normalizar e t :
  evaluar (normalizar_prog e) t = Ok ((), normalizar e t).
Proof. reflexivity. Qed.

Lemma evaluar_contar_negativos col t :
  evaluar (contar_negativos_prog col) t = contar_negativos col t ≫= λ n, Ok (n, t).
Proof. unfold contar_negativos_prog, contar_negativos. caso_prog. done. Qed.

Lemma evaluar_eliminar_negativos col n aviso adv t :
  evaluar (eliminar_negativos_prog col n aviso adv) t
  = eliminar_negativos col n aviso (t, adv) ≫= λ '(t', adv'), Ok (adv', t').
Proof.
  unfold eliminar_negativos_prog, eliminar_negativos.
  destruct (0 <? n)%nat; caso_prog; done.
Qed.

Lemma evaluar_filtro_categoria c sel todos t :
  evaluar (filtro_categoria_prog c sel todos) t
  = filtro_categoria c sel todos t ≫= λ t', Ok ((), t').
Proof.
  unfold filtro_categoria_prog, filtro_categoria.
  destruct sel as [s|]; [|done].
  destruct (es_verdadero (Some s) && negb (String.eqb s todos)); caso_prog; done.
Qed.

Lemma evaluar_aplicar f t :
  evaluar (aplicar_prog f) t = aplicar t f ≫= λ t', Ok ((), t').
Proof.
  unfold aplicar_prog, aplicar. caso_prog.
  rewrite !evaluar_bind, evaluar_filtro_categoria.
  destruct (filtro_categoria "region" _ _ _) as [t1|]; paso_prog; [|done].
  rewrite !evaluar_bind, evaluar_filtro_categoria.
  destruct (filtro_categoria "canal" _ _ _) as [t2|]; paso_prog; [|done].
  rewrite evaluar_filtro_categoria.
  destruct (filtro_categoria "id_producto" _ _ _) as [t3|]; paso_prog; done.
Qed.

Lemma evaluar_transformar t :
  evaluar transformar_prog t = transformar t ≫= λ t', Ok ((), t').
Proof. unfold transformar_prog, transformar. caso_prog. done. Qed.

Section LimpiezaProg.
Context `{Pandas}.

Lemma evaluar_convertir_numerico col adv t :
  evaluar (convertir_numerico_prog col adv) t
  = convertir_numerico col (t, adv) ≫= λ '(t', adv'), Ok (adv', t').
Proof.
  unfold convertir_numerico_prog, convertir_numerico. caso_prog.
  match goal with |- context [(0 <? ?n)%nat] => destruct (0 <? n)%nat end;
    caso_prog; done.
Qed.

Lemma evaluar_limpiar t :
  evaluar limpiar_prog t = limpiar t ≫= λ '(t', informe), Ok (informe, t').
Proof.
  unfold limpiar_prog, limpiar, dropna. caso_prog.
  cbn [para_cada_estado].
  rewrite evaluar_bind, evaluar_convertir_numerico.
  destruct (convertir_numerico "cantidad" _) as [[t1 a1]|]; paso_prog; [|done].
  rewrite evaluar_bind, evaluar_convertir_numerico.
  destruct (convertir_numerico "precio" _) as [[t2 a2]|]; paso_prog; [|done].
  rewrite evaluar_bind, evaluar_convertir_numerico.
  destruct (convertir_numerico "costo" _) as [[t3 a3]|]; paso_prog; [|done].
  rewrite evaluar_bind, evaluar_contar_negativos.
  destruct (contar_negativos "cantidad" _) as [n1|]; paso_prog; [|done].
  rewrite evaluar_bind, evaluar_eliminar_negativos.
  destruct (eliminar_negativos "cantidad" _ _ _) as [[t4 a4]|]; paso_prog; [|done].
  rewrite evaluar_bind, evaluar_contar_negativos.
  destruct (contar_negativos "precio" _) as [n2|]; paso_prog; [|done].
  rewrite evaluar_bind, evaluar_contar_negativos.
  destruct (contar_negativos "costo" _) as [n3|]; paso_prog; [|done].
  rewrite evaluar_bind, evaluar_eliminar_negativos.
  destruct (eliminar_negativos "precio" _ _ _) as [[t5 a5]|]; paso_prog; [|done].
  rewrite evaluar_bind, evaluar_eliminar_negativos.
  destruct (eliminar_negativos "costo" _ _ _) as [[t6 a6]|]; paso_prog; done.
Qed.

End LimpiezaProg.

(** C2: started on any object of any memory, [normalizar], [limpiar],
    [transformar] and [aplicar] leave every object that existed, the caller's
    table among them, as it was, and return their result (the one computed on
    table values) in a new object. So a second [aplicar] with another
    selection on the same base returns what it returns on the untouched base,
    and leaves the result of the first one as it was. *)
Theorem etapas_no_mutan_su_entrada `{Pandas} (σ : memoria) (l : ref) (t : DataFrame) :
  σ !! l = Some t →
  (∀ esquema,
     devuelve_nueva σ (ejecutar (normalizar_prog esquema) σ l)
       (Ok ((), normalizar esquema t)))
  ∧ devuelve_nueva σ (ejecutar limpiar_prog σ l)
      (limpiar t ≫= λ '(t', informe), Ok (informe, t'))
  ∧ devuelve_nueva σ (ejecutar transformar_prog σ l)
      (transformar t ≫= λ t', Ok ((), t'))
  ∧ (∀ filtros,
       devuelve_nueva σ (ejecutar (aplicar_prog filtros) σ l)
         (aplicar t filtros ≫= λ t', Ok ((), t')))
  ∧ (∀ filtros1 filtros2,
       let σ1 := (ejecutar (aplicar_prog filtros1) σ l).1.2 in
       σ1 !! l = Some t
       ∧ devuelve_nueva σ1 (ejecutar (aplicar_prog filtros2) σ1 l)
           (aplicar t filtros2 ≫= λ t', Ok ((), t'))).
Proof.
  intros Hl.
  assert (∀ filtros,
            devuelve_nueva σ (ejecutar (aplicar_prog filtros) σ l)
              (aplicar t filtros ≫= λ t', Ok ((), t'))) as Haplicar.
  { intros filtros. rewrite <- evaluar_aplicar. by apply ejecutar_tras_copia. }
  split; [|split; [|split; [|split]]].
  - intros esquema. rewrite <- evaluar_normalizar. by apply ejecutar_tras_copia.
  - rewrite <- evaluar_limpiar. by apply ejecutar_tras_copia.
  - rewrite <- evaluar_transformar. by apply ejecutar_tras_copia.
  - apply Haplicar.
  - intros filtros1 filtros2 σ1.
    assert (σ1 !! l = Some t) as Hl1 by by apply (Haplicar filtros1).
    split; [done|].
    rewrite <- evaluar_aplicar. by apply ejecutar_tras_copia.
Qed.

Lemma etapas_no_mutan_su_entrada_testigo :
  let σ : memoria := [tabla_limpia] in
  let σ1 := (ejecutar (aplicar_prog filtros_enero) σ 0).1.2 in
  let σ2 := (ejecutar (aplicar_prog filtros_febrero_norte) σ1 0).1.2 in
  σ !! 0%nat = Some tabla_limpia
  ∧ σ2 !! 0%nat = Some tabla_limpia
  ∧ devuelve_nueva σ1 (ejecutar (aplicar_prog filtros_febrero_norte) σ1 0)
      (aplicar tabla_limpia filtros_febrero_norte ≫= λ t', Ok ((), t')).
Proof.
  intros σ σ1 σ2.
  pose proof (@etapas_no_mutan_su_entrada pandas_ref σ 0%nat tabla_limpia eq_refl)
    as (_ & _ & _ & _ & Hdos).
  destruct (Hdos filtros_enero filtros_febrero_norte) as [H1 H2].
  split; [reflexivity|]. split; [|exact H2].
  apply (proj1 H2). exact H1.
Defined.

(** ** Insight generator *)





Lemma claves_no_vacio serie :
  alguno (notna <$> serie) = true → claves serie ≠ [].
Proof.
  unfold alguno. induction serie as [|c serie IH]; [done|].
  rewrite fmap_cons. cbn [existsb claves]. unfold notna at 1.
  destruct (isna c); cbn; [exact IH|done].
Qed.

Section InsightsProps.
Context `{Pandas} `{Formato} `{!PandasOk}.




End InsightsProps.






(** ** Forecaster *)

Lemma filter_fmap_Fecha (t : Timestamp) (tss : list Timestamp) :
  filter (λ c', misma_clave (Fecha t) c' = false) (Fecha <$> tss)
  = Fecha <$> filter (λ t', t' ≠ t) tss.
Proof.
  induction tss as [|t' tss IH]; [done|].
  rewrite fmap_cons. destruct (decide (t' = t)) as [->|Hne].
  - rewrite filter_cons_False; [|cbn; by rewrite Z.eqb_refl].
    rewrite filter_cons_False; [done|]. by intros ?.
  - rewrite filter_cons_True; [|cbn; apply Z.eqb_neq; congruence].
    rewrite filter_cons_True by done. rewrite fmap_cons. by f_equal.
Qed.

Lemma claves_fechas serie :
  forallb es_fecha_o_nulo serie = true → claves serie = Fecha <$> fechas_distintas serie.
Proof.
  induction serie as [|c serie IH]; [done|].
  cbn [forallb]. intros [Hc Hs]%andb_true_iff.
  destruct c as [|q|s|t]; try done; cbn [claves fechas_distintas isna].
  - by apply IH.
  - rewrite IH by done. rewrite filter_fmap_Fecha. by rewrite fmap_cons.
Qed.



Lemma fechas_distintas_no_vacio serie :
  alguno (notna <$> serie) = true → forallb es_fecha_o_nulo serie = true →
  fechas_distintas serie ≠ [].
Proof.
  intros Ha Hf. pose proof (claves_no_vacio serie Ha) as Hc.
  rewrite claves_fechas in Hc by done. by destruct (fechas_distintas serie).
Qed.

Lemma suma_de_unico c v :
  suma_de c {| g_clave := Nulo; g_sumas := list_to_map [(c, v)] |} = v.
Proof. unfold suma_de. cbn. by rewrite lookup_insert_eq. Qed.








Section PronosticoProps.
Context `{Pandas} `{!PandasOk}.





End PronosticoProps.


